(** * Asset operations of the graphene chain protocol

    A shallow embedding of
    [libraries/chain/include/graphene/chain/protocol/asset_ops.hpp]:
    the option records, the eleven asset operations, their inline
    [validate], [calculate_fee] and [fee_payer] members, the default
    fee schedules and the field orders registered with [FC_REFLECT].

    Fixed-width integers are values of [Z]; a [flat_set] of identifiers
    is a [gset]; [optional<T>] is [option T]; [FC_ASSERT] is a step of
    an error monad whose failure is [invariant_violation]. *)

From Stdlib Require Import ZArith Lia Ascii String.
From stdpp Require Import base decidable countable gmap sets list strings.

Local Open Scope Z_scope.

(** ** Failures and the error monad *)

(** The two failure kinds of this layer.  A failed [FC_ASSERT] throws
    an assertion exception: [invariant_violation]. *)
Inductive error_kind : Type :=
  | invariant_violation
  | unknown_extension.

Inductive result (A : Type) : Type :=
  | Ok (a : A)
  | Err (e : error_kind).

Arguments Ok {A} a.
Arguments Err {A} e.

#[global] Instance result_ret : MRet result := fun A a => Ok a.

#[global] Instance result_bind : MBind result :=
  fun A B f m => match m with Ok a => f a | Err e => Err e end.

(** [FC_ASSERT( b )]: go on when [b] holds, throw otherwise. *)
Definition FC_ASSERT (b : bool) : result unit :=
  if b then Ok tt else Err invariant_violation.

(** A check that can only fail as an invariant violation. *)
Definition invariant_check (r : result unit) : Prop :=
  r = Ok tt \/ r = Err invariant_violation.

(** ** Constants of the chain configuration

    The header uses these macros and constants but does not define
    them (they live in [config.hpp] and [types.hpp]); every definition
    below takes them from a [chain_config]. *)
Class chain_config : Type := {
  GRAPHENE_BLOCKCHAIN_PRECISION : Z;
  GRAPHENE_MAX_SHARE_SUPPLY : Z;
  UIA_ASSET_ISSUER_PERMISSION_MASK : Z;
  market_issued : Z;
  minimum_feed_reliability_window : Z
}.

(** Conversion of a value to [uint64_t] and [uint32_t]. *)
Definition to_uint64 (z : Z) : Z := z mod 2 ^ 64.
Definition to_uint32 (z : Z) : Z := z mod 2 ^ 32.
Definition to_uint16 (z : Z) : Z := z mod 2 ^ 16.

(** Conversion of a value to the signed 64-bit [share_type]: the low
    64 bits, read in two's complement. *)
Definition to_share_type (z : Z) : Z := (z + 2 ^ 63) mod 2 ^ 64 - 2 ^ 63.



Definition is_uint16 (z : Z) : Prop := 0 <= z < 2 ^ 16.

(** ** Primitive values *)

Record account_id_type : Type := account_id { account_instance : Z }.
Record asset_id_type : Type := asset_id { asset_instance : Z }.
Record force_settlement_id_type : Type :=
  force_settlement_id { force_settlement_instance : Z }.

#[global] Instance account_id_eq_dec : EqDecision account_id_type.
Proof. solve_decision. Defined.

#[global] Instance asset_id_eq_dec : EqDecision asset_id_type.
Proof. solve_decision. Defined.

#[global] Instance account_id_countable : Countable account_id_type.
Proof.
  refine (inj_countable' account_instance account_id _).
  intros [i]; reflexivity.
Defined.

#[global] Instance asset_id_countable : Countable asset_id_type.
Proof.
  refine (inj_countable' asset_instance asset_id _).
  intros [i]; reflexivity.
Defined.

(** [share_type] is a signed 64-bit amount. *)
Abbreviation share_type := Z.

Module asset.
Record t : Type := { amount : share_type; asset_id : asset_id_type }.
End asset.

Module price.
Record t : Type := { base : asset.t; quote : asset.t }.

(** Modelled from the spec: [price::validate] is defined outside
    this header.  Both legs have positive amounts and distinct asset
    ids. *)
Definition validate (p : t) : result unit :=
  FC_ASSERT (0 <? asset.amount (base p)) ;;
  FC_ASSERT (0 <? asset.amount (quote p)) ;;
  FC_ASSERT (negb (bool_decide (asset.asset_id (base p) = asset.asset_id (quote p)))).
End price.

(** ** maker_asset_options_extension *)

Module maker_asset_options_extension.
Record t : Type := {
  is_maker_issued_asset : bool;
  maker_fee_percent : Z;                      (* uint16_t *)
  maker_reward_percent : Z;                   (* uint16_t *)
  maker_reward_asset : option asset_id_type;
  daily_reward_decay_rate : Z                 (* uint16_t *)
}.

(** The member initialisers of the struct. *)
Definition default : t := {|
  is_maker_issued_asset := false;
  maker_fee_percent := 0;
  maker_reward_percent := 0;
  maker_reward_asset := None;
  daily_reward_decay_rate := 200
|}.

Definition validate (m : t) : result unit :=
  FC_ASSERT (daily_reward_decay_rate m <=? 10000) ;;
  FC_ASSERT (maker_reward_percent m <=? 10000) ;;
  FC_ASSERT (maker_fee_percent m <=? 10000) ;;
  if is_maker_issued_asset m
  then FC_ASSERT (maker_reward_percent m =? 0)
  else Ok tt.

(** The same record with another [maker_reward_asset]. *)
Definition with_reward_asset (a : option asset_id_type) (m : t) : t := {|
  is_maker_issued_asset := is_maker_issued_asset m;
  maker_fee_percent := maker_fee_percent m;
  maker_reward_percent := maker_reward_percent m;
  maker_reward_asset := a;
  daily_reward_decay_rate := daily_reward_decay_rate m
|}.
(** The same record with another [is_maker_issued_asset]. *)
Definition with_is_maker_issued_asset (b : bool) (m : t) : t := {|
  is_maker_issued_asset := b;
  maker_fee_percent := maker_fee_percent m;
  maker_reward_percent := maker_reward_percent m;
  maker_reward_asset := maker_reward_asset m;
  daily_reward_decay_rate := daily_reward_decay_rate m
|}.
End maker_asset_options_extension.

(** ** Symbol validation *)

Definition char_code (c : ascii) : Z := Z.of_N (N_of_ascii c).

Definition is_upper (c : ascii) : bool := (65 <=? char_code c) && (char_code c <=? 90).
Definition is_digit (c : ascii) : bool := (48 <=? char_code c) && (char_code c <=? 57).
Definition is_dot (c : ascii) : bool := char_code c =? 46.

Definition is_symbol_char (c : ascii) : bool := is_upper c || is_digit c || is_dot c.

Fixpoint count_dots (cs : list ascii) : Z :=
  match cs with
  | [] => 0
  | c :: cs' => (if is_dot c then 1 else 0) + count_dots cs'
  end.

Fixpoint no_adjacent_dots (cs : list ascii) : bool :=
  match cs with
  | c1 :: cs' =>
      match cs' with
      | c2 :: _ => negb (is_dot c1 && is_dot c2) && no_adjacent_dots cs'
      | [] => true
      end
  | [] => true
  end.

(** Modelled from the spec: [is_valid_symbol] is only declared in this
    header.  The symbol has 3 to 16 characters, starts and ends with a
    letter of [A-Z], uses only [A-Z0-9.], has at most one dot and no two
    adjacent dots. *)
Definition is_valid_symbol (symbol : string) : bool :=
  let cs := list_ascii_of_string symbol in
  let n := Z.of_nat (length cs) in
  (3 <=? n) && (n <=? 16)
  && from_option is_upper false (head cs)
  && from_option is_upper false (last cs)
  && forallb is_symbol_char cs
  && (count_dots cs <=? 1)
  && no_adjacent_dots cs.

(** ** asset_options and its extensions *)

(** [static_variant<void_t, maker_asset_options_extension>] *)
Inductive asset_options_extension : Type :=
  | ext_void
  | ext_maker (m : maker_asset_options_extension.t).

(** The tag of a variant, [static_variant::which()]. *)
Definition which (e : asset_options_extension) : Z :=
  match e with
  | ext_void => 0
  | ext_maker _ => 1
  end.

(** Validation of one extension in isolation: the empty placeholder
    has nothing to check, the maker extension checks itself. *)
Definition validate_extension (e : asset_options_extension) : result unit :=
  match e with
  | ext_void => Ok tt
  | ext_maker m => maker_asset_options_extension.validate m
  end.

Fixpoint validate_extensions (es : list asset_options_extension) : result unit :=
  match es with
  | [] => Ok tt
  | e :: es' => validate_extension e ;; validate_extensions es'
  end.

Module asset_options.
Record t : Type := {
  max_supply : share_type;
  market_fee_percent : Z;                     (* uint16_t *)
  max_market_fee : share_type;
  issuer_permissions : Z;                     (* uint16_t *)
  flags : Z;                                  (* uint16_t *)
  core_exchange_rate : price.t;
  whitelist_authorities : gset account_id_type;
  blacklist_authorities : gset account_id_type;
  whitelist_markets : gset asset_id_type;
  blacklist_markets : gset asset_id_type;
  description : string;
  extensions : list asset_options_extension
}.

Definition with_description (d : string) (o : t) : t := {|
  max_supply := max_supply o;
  market_fee_percent := market_fee_percent o;
  max_market_fee := max_market_fee o;
  issuer_permissions := issuer_permissions o;
  flags := flags o;
  core_exchange_rate := core_exchange_rate o;
  whitelist_authorities := whitelist_authorities o;
  blacklist_authorities := blacklist_authorities o;
  whitelist_markets := whitelist_markets o;
  blacklist_markets := blacklist_markets o;
  description := d;
  extensions := extensions o
|}.

(** The fields are 16 bits wide. *)
Definition well_typed (o : t) : Prop :=
  is_uint16 (market_fee_percent o) /\ is_uint16 (issuer_permissions o)
  /\ is_uint16 (flags o).

(** Modelled from the spec: [asset_options::validate] is only
    declared in this header.  The checks are the ones the spec
    lists, in its order; duplicates in the authority sets cannot
    occur in a [flat_set]. *)
Definition validate `{chain_config} (o : t) : result unit :=
  FC_ASSERT (0 <? max_supply o) ;;
  FC_ASSERT (max_supply o <=? GRAPHENE_MAX_SHARE_SUPPLY) ;;
  FC_ASSERT (market_fee_percent o <=? 10000) ;;
  FC_ASSERT ((0 <=? max_market_fee o) && (max_market_fee o <=? GRAPHENE_MAX_SHARE_SUPPLY)) ;;
  FC_ASSERT (Z.land (flags o) (Z.lnot (issuer_permissions o)) =? 0) ;;
  FC_ASSERT (Z.land (issuer_permissions o) (Z.lnot UIA_ASSET_ISSUER_PERMISSION_MASK) =? 0) ;;
  FC_ASSERT (bool_decide (whitelist_markets o ∩ blacklist_markets o = ∅)) ;;
  price.validate (core_exchange_rate o) ;;
  validate_extensions (extensions o) ;;
  FC_ASSERT (bool_decide (NoDup (which <$> extensions o))).
(** The member initialisers of the struct.  The containers start
    empty; [core_exchange_rate] is a default-constructed [price],
    whose constructor is outside this header, so its value is taken
    as an argument. *)
Definition default `{chain_config} (rate : price.t) : t := {|
  max_supply := GRAPHENE_MAX_SHARE_SUPPLY;
  market_fee_percent := 0;
  max_market_fee := GRAPHENE_MAX_SHARE_SUPPLY;
  issuer_permissions := to_uint16 UIA_ASSET_ISSUER_PERMISSION_MASK;
  flags := 0;
  core_exchange_rate := rate;
  whitelist_authorities := ∅;
  blacklist_authorities := ∅;
  whitelist_markets := ∅;
  blacklist_markets := ∅;
  description := "";
  extensions := []
|}.
End asset_options.

(** [flat_set<future_extensions>], with
    [future_extensions = static_variant<void_t>]. *)
Inductive future_extensions : Type := future_void.
Abbreviation extensions_type := (list future_extensions).

Module bitasset_options.
Record t : Type := {
  feed_lifetime_sec : Z;                      (* uint32_t *)
  minimum_feeds : Z;                          (* uint8_t *)
  force_settlement_delay_sec : Z;             (* uint32_t *)
  force_settlement_offset_percent : Z;        (* uint16_t *)
  maximum_force_settlement_volume : Z;        (* uint16_t *)
  short_backing_asset : asset_id_type;
  extensions : extensions_type
}.

(** Modelled from the spec: [bitasset_options::validate] is only
    declared in this header. *)
Definition validate `{chain_config} (b : t) : result unit :=
  FC_ASSERT (minimum_feed_reliability_window <=? feed_lifetime_sec b) ;;
  FC_ASSERT (negb (minimum_feeds b =? 0)) ;;
  FC_ASSERT (force_settlement_offset_percent b <=? 10000) ;;
  FC_ASSERT (maximum_force_settlement_volume b <=? 10000).
End bitasset_options.

(** ** Types of the neighbouring headers *)

(** Size of the variable-length encoding of a count: one byte per
    group of seven bits. *)
Definition varint_size (n : Z) : Z := Z.log2 n / 7 + 1.

Module memo_data.
(** Modelled from the spec: [memo_data] is declared in [memo.hpp].
    It holds the sender and recipient public keys, a nonce and the
    encrypted message. *)
Record t : Type := {
  from : list Byte.byte;
  to : list Byte.byte;
  nonce : Z;                                  (* uint64_t *)
  message : list Byte.byte
}.

(** Serialized length: the two keys, the 64-bit nonce, the message
    with its length prefix. *)
Definition pack_size (m : t) : Z :=
  Z.of_nat (length (from m)) + Z.of_nat (length (to m)) + 8
  + varint_size (Z.of_nat (length (message m))) + Z.of_nat (length (message m)).
End memo_data.

Module price_feed.
(** Modelled from the spec: [price_feed] is declared outside this
    header.  It carries the call-limit, short-limit and settlement
    prices. *)
Record t : Type := {
  call_limit : price.t;
  short_limit : price.t;
  settlement_price : price.t
}.
End price_feed.

(** Number of started kilobytes in [size] bytes. *)
Definition kbytes (size : Z) : Z := (size + 1023) / 1024.

(** ** The operations *)

Module asset_create_operation.
Module fee_parameters_type.
Record t : Type := {
  symbol3 : Z;                              (* uint64_t *)
  symbol4 : Z;                              (* uint64_t *)
  long_symbol : Z;                          (* uint64_t *)
  price_per_kbyte : Z                       (* uint32_t *)
}.

Definition default `{chain_config} : t := {|
  symbol3 := to_uint64 (500000 * GRAPHENE_BLOCKCHAIN_PRECISION);
  symbol4 := to_uint64 (300000 * GRAPHENE_BLOCKCHAIN_PRECISION);
  long_symbol := to_uint64 (5000 * GRAPHENE_BLOCKCHAIN_PRECISION);
  price_per_kbyte := 10
|}.

Definition well_typed (k : t) : Prop :=
  0 <= symbol3 k < 2 ^ 64 /\ 0 <= symbol4 k < 2 ^ 64
  /\ 0 <= long_symbol k < 2 ^ 64 /\ 0 <= price_per_kbyte k < 2 ^ 32.
End fee_parameters_type.

Record t : Type := {
  fee : asset.t;
  issuer : account_id_type;
  symbol : string;
  precision : Z;                              (* uint8_t *)
  common_options : asset_options.t;
  bitasset_opts : option bitasset_options.t;
  is_prediction_market : bool;
  extensions : extensions_type
}.

Definition fee_payer (op : t) : account_id_type := issuer op.

Definition with_description (d : string) (op : t) : t := {|
  fee := fee op;
  issuer := issuer op;
  symbol := symbol op;
  precision := precision op;
  common_options := asset_options.with_description d (common_options op);
  bitasset_opts := bitasset_opts op;
  is_prediction_market := is_prediction_market op;
  extensions := extensions op
|}.

(** Whether the market-issued bit is set in [common_options.flags]. *)
Definition market_issued_flag `{chain_config} (op : t) : bool :=
  negb (Z.land (asset_options.flags (common_options op)) market_issued =? 0).

(** Modelled from the spec: [asset_create_operation::validate] is
    only declared in this header.  The fee is not negative, the
    symbol is valid, the precision is at most 12, the common options
    validate, [bitasset_opts] is present and validates when the
    market-issued flag is set and is absent otherwise, and a
    prediction market has [bitasset_opts]. *)
Definition validate `{chain_config} (op : t) : result unit :=
  FC_ASSERT (0 <=? asset.amount (fee op)) ;;
  FC_ASSERT (is_valid_symbol (symbol op)) ;;
  FC_ASSERT (precision op <=? 12) ;;
  asset_options.validate (common_options op) ;;
  (if market_issued_flag op
   then match bitasset_opts op with
        | Some b => bitasset_options.validate b
        | None => FC_ASSERT false
        end
   else FC_ASSERT (bool_decide (bitasset_opts op = None))) ;;
  if is_prediction_market op
  then FC_ASSERT (bool_decide (is_Some (bitasset_opts op)))
  else Ok tt.

(** Modelled from the spec: the body of [calculate_fee] is outside
    this header.  The fee of the schedule as an exact integer: the base fee chosen
    by the length of the symbol, plus one [price_per_kbyte] for every
    started kilobyte of the description. *)
Definition exact_fee (op : t) (k : fee_parameters_type.t) : Z :=
  let len := Z.of_nat (String.length (symbol op)) in
  let core_fee_required :=
    if len =? 3 then fee_parameters_type.symbol3 k
    else if len =? 4 then fee_parameters_type.symbol4 k
    else fee_parameters_type.long_symbol k in
  core_fee_required
  + fee_parameters_type.price_per_kbyte k
    * kbytes (Z.of_nat (String.length (asset_options.description (common_options op)))).

(** Modelled from the spec: [asset_create_operation::calculate_fee]
    is only declared in this header.  It returns the fee of the
    schedule as a [share_type], a signed 64-bit integer. *)
Definition calculate_fee (op : t) (k : fee_parameters_type.t) : share_type :=
  to_share_type (exact_fee op k).
End asset_create_operation.

Module asset_global_settle_operation.
Module fee_parameters_type.
Record t : Type := { fee : Z (* uint64_t *) }.

Definition default `{chain_config} : t :=
  {| fee := to_uint64 (500 * GRAPHENE_BLOCKCHAIN_PRECISION) |}.
End fee_parameters_type.

Record t : Type := {
  fee : asset.t;
  issuer : account_id_type;
  asset_to_settle : asset_id_type;
  settle_price : price.t;
  extensions : extensions_type
}.

Definition fee_payer (op : t) : account_id_type := issuer op.
End asset_global_settle_operation.

Module asset_settle_operation.
Module fee_parameters_type.
Record t : Type := { fee : Z (* uint64_t *) }.

Definition default `{chain_config} : t :=
  {| fee := to_uint64 (100 * GRAPHENE_BLOCKCHAIN_PRECISION) |}.
End fee_parameters_type.

Record t : Type := {
  fee : asset.t;
  account : account_id_type;
  amount : asset.t;
  extensions : extensions_type
}.

Definition fee_payer (op : t) : account_id_type := account op.
End asset_settle_operation.

Module asset_settle_cancel_operation.
Module fee_parameters_type.
(** [struct fee_parameters_type { };] *)
Inductive t : Type := Build_t.
End fee_parameters_type.

Record t : Type := {
  fee : asset.t;
  settlement : force_settlement_id_type;
  account : account_id_type;
  amount : asset.t;
  extensions : extensions_type
}.

Definition fee_payer (op : t) : account_id_type := account op.

Definition validate (op : t) : result unit := Ok tt.

Definition calculate_fee (op : t) (params : fee_parameters_type.t) : share_type := 0.
End asset_settle_cancel_operation.

Module asset_fund_fee_pool_operation.
Module fee_parameters_type.
Record t : Type := { fee : Z (* uint64_t *) }.

Definition default `{chain_config} : t :=
  {| fee := to_uint64 GRAPHENE_BLOCKCHAIN_PRECISION |}.
End fee_parameters_type.

Record t : Type := {
  fee : asset.t;
  from_account : account_id_type;
  asset_id : asset_id_type;
  amount : share_type;
  extensions : extensions_type
}.

Definition fee_payer (op : t) : account_id_type := from_account op.
End asset_fund_fee_pool_operation.

Module asset_update_operation.
Module fee_parameters_type.
Record t : Type := {
  fee : Z;                                  (* uint64_t *)
  price_per_kbyte : Z                       (* uint32_t *)
}.

Definition default `{chain_config} : t := {|
  fee := to_uint64 (500 * GRAPHENE_BLOCKCHAIN_PRECISION);
  price_per_kbyte := 10
|}.

Definition well_typed (k : t) : Prop :=
  0 <= fee k < 2 ^ 64 /\ 0 <= price_per_kbyte k < 2 ^ 32.
End fee_parameters_type.

Record t : Type := {
  fee : asset.t;
  issuer : account_id_type;
  asset_to_update : asset_id_type;
  new_issuer : option account_id_type;
  new_options : asset_options.t;
  extensions : extensions_type
}.

Definition fee_payer (op : t) : account_id_type := issuer op.

Definition with_description (d : string) (op : t) : t := {|
  fee := fee op;
  issuer := issuer op;
  asset_to_update := asset_to_update op;
  new_issuer := new_issuer op;
  new_options := asset_options.with_description d (new_options op);
  extensions := extensions op
|}.

(** Modelled from the spec: the body of [calculate_fee] is outside
    this header.  The fee of the schedule as an exact integer: the flat fee plus
    one [price_per_kbyte] for every started kilobyte of the description
    in [new_options]. *)
Definition exact_fee (op : t) (k : fee_parameters_type.t) : Z :=
  fee_parameters_type.fee k
  + fee_parameters_type.price_per_kbyte k
    * kbytes (Z.of_nat (String.length (asset_options.description (new_options op)))).

(** Modelled from the spec: [asset_update_operation::calculate_fee]
    is only declared in this header.  It returns the fee of the
    schedule as a [share_type], a signed 64-bit integer. *)
Definition calculate_fee (op : t) (k : fee_parameters_type.t) : share_type :=
  to_share_type (exact_fee op k).
End asset_update_operation.

Module asset_update_bitasset_operation.
Module fee_parameters_type.
Record t : Type := { fee : Z (* uint64_t *) }.

Definition default `{chain_config} : t :=
  {| fee := to_uint64 (500 * GRAPHENE_BLOCKCHAIN_PRECISION) |}.
End fee_parameters_type.

Record t : Type := {
  fee : asset.t;
  issuer : account_id_type;
  asset_to_update : asset_id_type;
  new_options : bitasset_options.t;
  extensions : extensions_type
}.

Definition fee_payer (op : t) : account_id_type := issuer op.
End asset_update_bitasset_operation.

Module asset_update_feed_producers_operation.
Module fee_parameters_type.
Record t : Type := { fee : Z (* uint64_t *) }.

Definition default `{chain_config} : t :=
  {| fee := to_uint64 (500 * GRAPHENE_BLOCKCHAIN_PRECISION) |}.
End fee_parameters_type.

Record t : Type := {
  fee : asset.t;
  issuer : account_id_type;
  asset_to_update : asset_id_type;
  new_feed_producers : gset account_id_type;
  extensions : extensions_type
}.

Definition fee_payer (op : t) : account_id_type := issuer op.
End asset_update_feed_producers_operation.

Module asset_publish_feed_operation.
Module fee_parameters_type.
Record t : Type := { fee : Z (* uint64_t *) }.

Definition default `{chain_config} : t :=
  {| fee := to_uint64 GRAPHENE_BLOCKCHAIN_PRECISION |}.
End fee_parameters_type.

Record t : Type := {
  fee : asset.t;
  publisher : account_id_type;
  asset_id : asset_id_type;
  feed : price_feed.t;
  extensions : extensions_type
}.

Definition fee_payer (op : t) : account_id_type := publisher op.
End asset_publish_feed_operation.

Module asset_issue_operation.
Module fee_parameters_type.
Record t : Type := {
  fee : Z;                                  (* uint64_t *)
  price_per_kbyte : Z                       (* uint32_t *)
}.

Definition default `{chain_config} : t := {|
  fee := to_uint64 (20 * GRAPHENE_BLOCKCHAIN_PRECISION);
  price_per_kbyte := to_uint32 GRAPHENE_BLOCKCHAIN_PRECISION
|}.

Definition well_typed (k : t) : Prop :=
  0 <= fee k < 2 ^ 64 /\ 0 <= price_per_kbyte k < 2 ^ 32.
End fee_parameters_type.

Record t : Type := {
  fee : asset.t;
  issuer : account_id_type;
  asset_to_issue : asset.t;
  issue_to_account : account_id_type;
  memo : option memo_data.t;
  extensions : extensions_type
}.

Definition fee_payer (op : t) : account_id_type := issuer op.


(** Serialized length of the memo, 0 when there is none. *)
Definition memo_size (m : option memo_data.t) : Z :=
  match m with
  | Some d => memo_data.pack_size d
  | None => 0
  end.

(** Modelled from the spec: the body of [calculate_fee] is outside
    this header.  The fee of the schedule as an exact integer: the flat fee plus
    one [price_per_kbyte] for every started kilobyte of the memo. *)
Definition exact_fee (op : t) (k : fee_parameters_type.t) : Z :=
  fee_parameters_type.fee k
  + fee_parameters_type.price_per_kbyte k * kbytes (memo_size (memo op)).

(** Modelled from the spec: [asset_issue_operation::calculate_fee]
    is only declared in this header.  It returns the fee of the
    schedule as a [share_type], a signed 64-bit integer. *)
Definition calculate_fee (op : t) (k : fee_parameters_type.t) : share_type :=
  to_share_type (exact_fee op k).
End asset_issue_operation.

Module asset_reserve_operation.
Module fee_parameters_type.
Record t : Type := { fee : Z (* uint64_t *) }.

Definition default `{chain_config} : t :=
  {| fee := to_uint64 (20 * GRAPHENE_BLOCKCHAIN_PRECISION) |}.
End fee_parameters_type.

Record t : Type := {
  fee : asset.t;
  payer : account_id_type;
  amount_to_reserve : asset.t;
  extensions : extensions_type
}.

Definition fee_payer (op : t) : account_id_type := payer op.
End asset_reserve_operation.

(** ** Field orders registered for serialization *)

(** The types this header registers with [FC_REFLECT]. *)
Inductive reflected_operation : Type :=
  | o_asset_create
  | o_asset_global_settle
  | o_asset_settle
  | o_asset_settle_cancel
  | o_asset_fund_fee_pool
  | o_asset_update
  | o_asset_update_bitasset
  | o_asset_update_feed_producers
  | o_asset_publish_feed
  | o_asset_issue
  | o_asset_reserve.

Inductive reflected : Type :=
  | r_asset_options
  | r_bitasset_options
  | r_maker_asset_options_extension
  | r_fee_parameters (o : reflected_operation)
  | r_operation (o : reflected_operation).

Local Open Scope string_scope.

(** The member list of each [FC_REFLECT( type, (m1)(m2)... )], in the
    order written. *)
Definition FC_REFLECT (r : reflected) : list string :=
  match r with
  | r_asset_options =>
      ["max_supply"; "market_fee_percent"; "max_market_fee"; "issuer_permissions";
       "flags"; "core_exchange_rate"; "whitelist_authorities"; "blacklist_authorities";
       "whitelist_markets"; "blacklist_markets"; "description"; "extensions"]
  | r_bitasset_options =>
      ["feed_lifetime_sec"; "minimum_feeds"; "force_settlement_delay_sec";
       "force_settlement_offset_percent"; "maximum_force_settlement_volume";
       "short_backing_asset"; "extensions"]
  | r_maker_asset_options_extension =>
      ["is_maker_issued_asset"; "maker_fee_percent"; "maker_reward_percent";
       "maker_reward_asset"; "daily_reward_decay_rate"]
  | r_fee_parameters o_asset_create =>
      ["symbol3"; "symbol4"; "long_symbol"; "price_per_kbyte"]
  | r_fee_parameters o_asset_global_settle => ["fee"]
  | r_fee_parameters o_asset_settle => ["fee"]
  | r_fee_parameters o_asset_settle_cancel => []
  | r_fee_parameters o_asset_fund_fee_pool => ["fee"]
  | r_fee_parameters o_asset_update => ["fee"; "price_per_kbyte"]
  | r_fee_parameters o_asset_update_bitasset => ["fee"]
  | r_fee_parameters o_asset_update_feed_producers => ["fee"]
  | r_fee_parameters o_asset_publish_feed => ["fee"]
  | r_fee_parameters o_asset_issue => ["fee"; "price_per_kbyte"]
  | r_fee_parameters o_asset_reserve => ["fee"]
  | r_operation o_asset_create =>
      ["fee"; "issuer"; "symbol"; "precision"; "common_options"; "bitasset_opts";
       "is_prediction_market"; "extensions"]
  | r_operation o_asset_update =>
      ["fee"; "issuer"; "asset_to_update"; "new_issuer"; "new_options"; "extensions"]
  | r_operation o_asset_update_bitasset =>
      ["fee"; "issuer"; "asset_to_update"; "new_options"; "extensions"]
  | r_operation o_asset_update_feed_producers =>
      ["fee"; "issuer"; "asset_to_update"; "new_feed_producers"; "extensions"]
  | r_operation o_asset_publish_feed =>
      ["fee"; "publisher"; "asset_id"; "feed"; "extensions"]
  | r_operation o_asset_settle => ["fee"; "account"; "amount"; "extensions"]
  | r_operation o_asset_settle_cancel =>
      ["fee"; "settlement"; "account"; "amount"; "extensions"]
  | r_operation o_asset_global_settle =>
      ["fee"; "issuer"; "asset_to_settle"; "settle_price"; "extensions"]
  | r_operation o_asset_issue =>
      ["fee"; "issuer"; "asset_to_issue"; "issue_to_account"; "memo"; "extensions"]
  | r_operation o_asset_reserve => ["fee"; "payer"; "amount_to_reserve"; "extensions"]
  | r_operation o_asset_fund_fee_pool =>
      ["fee"; "from_account"; "asset_id"; "amount"; "extensions"]
  end.

(** The wire order the specification declares: the operation field
    orders of its section on external interfaces, the option records
    as tabulated in its data model.  It declares none for the fee
    schedules. *)
Definition declared_order (r : reflected) : option (list string) :=
  match r with
  | r_operation o =>
      Some match o with
           | o_asset_create =>
               ["fee"; "issuer"; "symbol"; "precision"; "common_options";
                "bitasset_opts"; "is_prediction_market"; "extensions"]
           | o_asset_update =>
               ["fee"; "issuer"; "asset_to_update"; "new_issuer"; "new_options";
                "extensions"]
           | o_asset_update_bitasset =>
               ["fee"; "issuer"; "asset_to_update"; "new_options"; "extensions"]
           | o_asset_update_feed_producers =>
               ["fee"; "issuer"; "asset_to_update"; "new_feed_producers"; "extensions"]
           | o_asset_publish_feed =>
               ["fee"; "publisher"; "asset_id"; "feed"; "extensions"]
           | o_asset_settle => ["fee"; "account"; "amount"; "extensions"]
           | o_asset_settle_cancel =>
               ["fee"; "settlement"; "account"; "amount"; "extensions"]
           | o_asset_global_settle =>
               ["fee"; "issuer"; "asset_to_settle"; "settle_price"; "extensions"]
           | o_asset_issue =>
               ["fee"; "issuer"; "asset_to_issue"; "issue_to_account"; "memo";
                "extensions"]
           | o_asset_reserve => ["fee"; "payer"; "amount_to_reserve"; "extensions"]
           | o_asset_fund_fee_pool =>
               ["fee"; "from_account"; "asset_id"; "amount"; "extensions"]
           end
  | r_asset_options =>
      Some ["max_supply"; "market_fee_percent"; "max_market_fee";
            "issuer_permissions"; "flags"; "core_exchange_rate";
            "whitelist_authorities"; "blacklist_authorities"; "whitelist_markets";
            "blacklist_markets"; "description"; "extensions"]
  | r_bitasset_options =>
      Some ["feed_lifetime_sec"; "minimum_feeds"; "force_settlement_delay_sec";
            "force_settlement_offset_percent"; "maximum_force_settlement_volume";
            "short_backing_asset"; "extensions"]
  | r_maker_asset_options_extension =>
      Some ["is_maker_issued_asset"; "maker_fee_percent"; "maker_reward_percent";
            "maker_reward_asset"; "daily_reward_decay_rate"]
  | r_fee_parameters _ => None
  end.

Local Close Scope string_scope.

(** ** Sample values

    A configuration with sample constants and a few records, used to
    run the definitions. *)
Definition sample_config : chain_config := {|
  GRAPHENE_BLOCKCHAIN_PRECISION := 100000;
  GRAPHENE_MAX_SHARE_SUPPLY := 1000000000000000;
  UIA_ASSET_ISSUER_PERMISSION_MASK := 79;
  market_issued := 8;
  minimum_feed_reliability_window := 1
|}.

Definition sample_maker_contradiction : maker_asset_options_extension.t := {|
  maker_asset_options_extension.is_maker_issued_asset := true;
  maker_asset_options_extension.maker_fee_percent := 0;
  maker_asset_options_extension.maker_reward_percent := 500;
  maker_asset_options_extension.maker_reward_asset := None;
  maker_asset_options_extension.daily_reward_decay_rate := 200
|}.

Definition sample_maker_reward_without_asset : maker_asset_options_extension.t := {|
  maker_asset_options_extension.is_maker_issued_asset := false;
  maker_asset_options_extension.maker_fee_percent := 0;
  maker_asset_options_extension.maker_reward_percent := 500;
  maker_asset_options_extension.maker_reward_asset := None;
  maker_asset_options_extension.daily_reward_decay_rate := 200
|}.

Definition sample_maker_reward_with_asset : maker_asset_options_extension.t :=
  maker_asset_options_extension.with_reward_asset (Some (asset_id 7))
    sample_maker_reward_without_asset.

(** ** Properties stated about the definitions *)

(** What [maker_asset_options_extension::validate] asserts. *)
Definition maker_checked (m : maker_asset_options_extension.t) : Prop :=
  maker_asset_options_extension.daily_reward_decay_rate m <= 10000
  /\ maker_asset_options_extension.maker_reward_percent m <= 10000
  /\ maker_asset_options_extension.maker_fee_percent m <= 10000
  /\ (maker_asset_options_extension.is_maker_issued_asset m = true ->
      maker_asset_options_extension.maker_reward_percent m = 0).

(** The invariants listed for the maker extension, among them that a
    positive reward percentage comes with a reward asset. *)
Definition maker_invariants (m : maker_asset_options_extension.t) : Prop :=
  maker_checked m
  /\ (maker_asset_options_extension.maker_reward_percent m > 0 ->
      is_Some (maker_asset_options_extension.maker_reward_asset m)).

(** Two maker extensions that differ at most in [maker_reward_asset]. *)
Definition same_but_reward_asset (m1 m2 : maker_asset_options_extension.t) : Prop :=
  maker_asset_options_extension.is_maker_issued_asset m1
  = maker_asset_options_extension.is_maker_issued_asset m2
  /\ maker_asset_options_extension.maker_fee_percent m1
     = maker_asset_options_extension.maker_fee_percent m2
  /\ maker_asset_options_extension.maker_reward_percent m1
     = maker_asset_options_extension.maker_reward_percent m2
  /\ maker_asset_options_extension.daily_reward_decay_rate m1
     = maker_asset_options_extension.daily_reward_decay_rate m2.

(** The default fee schedules, every fee as a multiple of
    [GRAPHENE_BLOCKCHAIN_PRECISION]; the per-kilobyte prices of
    asset_create and asset_update are left open. *)
Definition default_fee_schedules `{chain_config}
    (create_price_per_kbyte update_price_per_kbyte : Z) : Prop :=
  let unit := GRAPHENE_BLOCKCHAIN_PRECISION in
  asset_create_operation.fee_parameters_type.symbol3
    asset_create_operation.fee_parameters_type.default = 500000 * unit
  /\ asset_create_operation.fee_parameters_type.symbol4
       asset_create_operation.fee_parameters_type.default = 300000 * unit
  /\ asset_create_operation.fee_parameters_type.long_symbol
       asset_create_operation.fee_parameters_type.default = 5000 * unit
  /\ asset_create_operation.fee_parameters_type.price_per_kbyte
       asset_create_operation.fee_parameters_type.default = create_price_per_kbyte
  /\ asset_update_operation.fee_parameters_type.fee
       asset_update_operation.fee_parameters_type.default = 500 * unit
  /\ asset_update_operation.fee_parameters_type.price_per_kbyte
       asset_update_operation.fee_parameters_type.default = update_price_per_kbyte
  /\ asset_issue_operation.fee_parameters_type.fee
       asset_issue_operation.fee_parameters_type.default = 20 * unit
  /\ asset_issue_operation.fee_parameters_type.price_per_kbyte
       asset_issue_operation.fee_parameters_type.default = 1 * unit
  /\ asset_global_settle_operation.fee_parameters_type.fee
       asset_global_settle_operation.fee_parameters_type.default = 500 * unit
  /\ asset_settle_operation.fee_parameters_type.fee
       asset_settle_operation.fee_parameters_type.default = 100 * unit
  /\ asset_fund_fee_pool_operation.fee_parameters_type.fee
       asset_fund_fee_pool_operation.fee_parameters_type.default = 1 * unit
  /\ asset_update_bitasset_operation.fee_parameters_type.fee
       asset_update_bitasset_operation.fee_parameters_type.default = 500 * unit
  /\ asset_update_feed_producers_operation.fee_parameters_type.fee
       asset_update_feed_producers_operation.fee_parameters_type.default = 500 * unit
  /\ asset_publish_feed_operation.fee_parameters_type.fee
       asset_publish_feed_operation.fee_parameters_type.default = 1 * unit
  /\ asset_reserve_operation.fee_parameters_type.fee
       asset_reserve_operation.fee_parameters_type.default = 20 * unit.

(** The character classes and the shape of a ticker symbol, as
    propositions. *)
Definition in_A_Z (c : ascii) : Prop := 65 <= char_code c <= 90.
Definition in_0_9 (c : ascii) : Prop := 48 <= char_code c <= 57.

Definition allowed_char (c : ascii) : Prop :=
  in_A_Z c \/ in_0_9 c \/ c = "."%char.

Definition symbol_well_formed (symbol : string) : Prop :=
  let cs := list_ascii_of_string symbol in
  (3 <= String.length symbol <= 16)%nat
  /\ (exists c, head cs = Some c /\ in_A_Z c)
  /\ (exists c, last cs = Some c /\ in_A_Z c)
  /\ Forall allowed_char cs
  /\ (length (filter (fun c => c = "."%char) cs) <= 1)%nat.

Definition sample_asset (a : Z) (i : Z) : asset.t :=
  {| asset.amount := a; asset.asset_id := asset_id i |}.



(** [a] has a bit set that is clear in [b]. *)
Definition has_bit_outside (a b : Z) : Prop :=
  exists i, 0 <= i /\ Z.testbit a i = true /\ Z.testbit b i = false.

(** Two entries of the extension list carry the same tag. *)
Definition share_a_tag (es : list asset_options_extension) : Prop :=
  exists (i j : nat) e1 e2,
    i <> j /\ es !! i = Some e1 /\ es !! j = Some e2 /\ which e1 = which e2.

(** The conditions under which [asset_options::validate] is to fail. *)
Definition asset_options_violation `{chain_config} (o : asset_options.t) : Prop :=
  asset_options.max_supply o <= 0
  \/ asset_options.max_supply o > GRAPHENE_MAX_SHARE_SUPPLY
  \/ asset_options.market_fee_percent o > 10000
  \/ asset_options.max_market_fee o < 0
  \/ asset_options.max_market_fee o > GRAPHENE_MAX_SHARE_SUPPLY
  \/ has_bit_outside (asset_options.flags o) (asset_options.issuer_permissions o)
  \/ has_bit_outside (asset_options.issuer_permissions o) UIA_ASSET_ISSUER_PERMISSION_MASK
  \/ (exists x, x ∈ asset_options.whitelist_markets o
                /\ x ∈ asset_options.blacklist_markets o)
  \/ asset.amount (price.base (asset_options.core_exchange_rate o)) <= 0
  \/ asset.amount (price.quote (asset_options.core_exchange_rate o)) <= 0
  \/ asset.asset_id (price.base (asset_options.core_exchange_rate o))
     = asset.asset_id (price.quote (asset_options.core_exchange_rate o))
  \/ (exists e, e ∈ asset_options.extensions o /\ validate_extension e <> Ok tt)
  \/ share_a_tag (asset_options.extensions o).

Definition sample_options : asset_options.t := {|
  asset_options.max_supply := 1000000000000000;
  asset_options.market_fee_percent := 0;
  asset_options.max_market_fee := 1000000000000000;
  asset_options.issuer_permissions := 79;
  asset_options.flags := 0;
  asset_options.core_exchange_rate :=
    {| price.base := sample_asset 1 0; price.quote := sample_asset 1 1 |};
  asset_options.whitelist_authorities := ∅;
  asset_options.blacklist_authorities := ∅;
  asset_options.whitelist_markets := ∅;
  asset_options.blacklist_markets := ∅;
  asset_options.description := "";
  asset_options.extensions := []
|}.

(** [sample_options] with asset 5 both white- and blacklisted. *)
Definition sample_options_overlap : asset_options.t := {|
  asset_options.max_supply := 1000000000000000;
  asset_options.market_fee_percent := 0;
  asset_options.max_market_fee := 1000000000000000;
  asset_options.issuer_permissions := 79;
  asset_options.flags := 0;
  asset_options.core_exchange_rate :=
    {| price.base := sample_asset 1 0; price.quote := sample_asset 1 1 |};
  asset_options.whitelist_authorities := ∅;
  asset_options.blacklist_authorities := ∅;
  asset_options.whitelist_markets := {[ asset_id 5 ]};
  asset_options.blacklist_markets := {[ asset_id 5 ]};
  asset_options.description := "";
  asset_options.extensions := []
|}.

(** [sample_options] with the market-issued flag of [sample_config]. *)
Definition sample_options_market : asset_options.t := {|
  asset_options.max_supply := 1000000000000000;
  asset_options.market_fee_percent := 0;
  asset_options.max_market_fee := 1000000000000000;
  asset_options.issuer_permissions := 79;
  asset_options.flags := 8;
  asset_options.core_exchange_rate :=
    {| price.base := sample_asset 1 0; price.quote := sample_asset 1 1 |};
  asset_options.whitelist_authorities := ∅;
  asset_options.blacklist_authorities := ∅;
  asset_options.whitelist_markets := ∅;
  asset_options.blacklist_markets := ∅;
  asset_options.description := "";
  asset_options.extensions := []
|}.

Definition sample_bitasset_options : bitasset_options.t := {|
  bitasset_options.feed_lifetime_sec := 86400;
  bitasset_options.minimum_feeds := 1;
  bitasset_options.force_settlement_delay_sec := 86400;
  bitasset_options.force_settlement_offset_percent := 0;
  bitasset_options.maximum_force_settlement_volume := 2000;
  bitasset_options.short_backing_asset := asset_id 0;
  bitasset_options.extensions := []
|}.

Definition sample_create (o : asset_options.t) (b : option bitasset_options.t) :
    asset_create_operation.t := {|
  asset_create_operation.fee := sample_asset 0 0;
  asset_create_operation.issuer := account_id 10;
  asset_create_operation.symbol := "BTS";
  asset_create_operation.precision := 5;
  asset_create_operation.common_options := o;
  asset_create_operation.bitasset_opts := b;
  asset_create_operation.is_prediction_market := false;
  asset_create_operation.extensions := []
|}.

(** ** Further properties of the header *)

(** [m'] has the flag of [m] and percentages that are not larger. *)
Definition maker_no_larger (m' m : maker_asset_options_extension.t) : Prop :=
  maker_asset_options_extension.is_maker_issued_asset m'
  = maker_asset_options_extension.is_maker_issued_asset m
  /\ 0 <= maker_asset_options_extension.maker_reward_percent m'
     <= maker_asset_options_extension.maker_reward_percent m
  /\ maker_asset_options_extension.maker_fee_percent m'
     <= maker_asset_options_extension.maker_fee_percent m
  /\ maker_asset_options_extension.daily_reward_decay_rate m'
     <= maker_asset_options_extension.daily_reward_decay_rate m.

(** The default flat fees of the operations other than asset_create. *)
Definition default_flat_fees `{chain_config} : list Z := [
  asset_global_settle_operation.fee_parameters_type.fee
    asset_global_settle_operation.fee_parameters_type.default;
  asset_settle_operation.fee_parameters_type.fee
    asset_settle_operation.fee_parameters_type.default;
  asset_fund_fee_pool_operation.fee_parameters_type.fee
    asset_fund_fee_pool_operation.fee_parameters_type.default;
  asset_update_operation.fee_parameters_type.fee
    asset_update_operation.fee_parameters_type.default;
  asset_update_bitasset_operation.fee_parameters_type.fee
    asset_update_bitasset_operation.fee_parameters_type.default;
  asset_update_feed_producers_operation.fee_parameters_type.fee
    asset_update_feed_producers_operation.fee_parameters_type.default;
  asset_publish_feed_operation.fee_parameters_type.fee
    asset_publish_feed_operation.fee_parameters_type.default;
  asset_issue_operation.fee_parameters_type.fee
    asset_issue_operation.fee_parameters_type.default;
  asset_reserve_operation.fee_parameters_type.fee
    asset_reserve_operation.fee_parameters_type.default
].

(** The data members of each registered struct, in the order the
    struct declares them. *)
Definition struct_members (r : reflected) : list string :=
  match r with
  | r_maker_asset_options_extension =>
      ["is_maker_issued_asset"; "maker_fee_percent"; "maker_reward_percent";
       "maker_reward_asset"; "daily_reward_decay_rate"]
  | r_asset_options =>
      ["max_supply"; "market_fee_percent"; "max_market_fee"; "issuer_permissions";
       "flags"; "core_exchange_rate"; "whitelist_authorities";
       "blacklist_authorities"; "whitelist_markets"; "blacklist_markets";
       "description"; "extensions"]
  | r_bitasset_options =>
      ["feed_lifetime_sec"; "minimum_feeds"; "force_settlement_delay_sec";
       "force_settlement_offset_percent"; "maximum_force_settlement_volume";
       "short_backing_asset"; "extensions"]
  | r_fee_parameters o =>
      match o with
      | o_asset_create => ["symbol3"; "symbol4"; "long_symbol"; "price_per_kbyte"]
      | o_asset_settle_cancel => []
      | o_asset_update | o_asset_issue => ["fee"; "price_per_kbyte"]
      | o_asset_global_settle | o_asset_settle | o_asset_fund_fee_pool
      | o_asset_update_bitasset | o_asset_update_feed_producers
      | o_asset_publish_feed | o_asset_reserve => ["fee"]
      end
  | r_operation o =>
      match o with
      | o_asset_create =>
          ["fee"; "issuer"; "symbol"; "precision"; "common_options"; "bitasset_opts";
           "is_prediction_market"; "extensions"]
      | o_asset_global_settle =>
          ["fee"; "issuer"; "asset_to_settle"; "settle_price"; "extensions"]
      | o_asset_settle => ["fee"; "account"; "amount"; "extensions"]
      | o_asset_settle_cancel =>
          ["fee"; "settlement"; "account"; "amount"; "extensions"]
      | o_asset_fund_fee_pool =>
          ["fee"; "from_account"; "asset_id"; "amount"; "extensions"]
      | o_asset_update =>
          ["fee"; "issuer"; "asset_to_update"; "new_issuer"; "new_options";
           "extensions"]
      | o_asset_update_bitasset =>
          ["fee"; "issuer"; "asset_to_update"; "new_options"; "extensions"]
      | o_asset_update_feed_producers =>
          ["fee"; "issuer"; "asset_to_update"; "new_feed_producers"; "extensions"]
      | o_asset_publish_feed =>
          ["fee"; "publisher"; "asset_id"; "feed"; "extensions"]
      | o_asset_issue =>
          ["fee"; "issuer"; "asset_to_issue"; "issue_to_account"; "memo";
           "extensions"]
      | o_asset_reserve => ["fee"; "payer"; "amount_to_reserve"; "extensions"]
      end
  end%string.

(** A maker-issued asset: the flag is set and nothing goes to rewards. *)
Definition sample_maker_issued : maker_asset_options_extension.t := {|
  maker_asset_options_extension.is_maker_issued_asset := true;
  maker_asset_options_extension.maker_fee_percent := 0;
  maker_asset_options_extension.maker_reward_percent := 0;
  maker_asset_options_extension.maker_reward_asset := None;
  maker_asset_options_extension.daily_reward_decay_rate := 200
|}.



(** * Lemmas about the error monad *)

Lemma FC_ASSERT_Ok (b : bool) : FC_ASSERT b = Ok tt <-> b = true.
Proof. destruct b; simpl; split; congruence. Qed.

Lemma bind_Ok (m k : result unit) : (m ;; k) = Ok tt <-> m = Ok tt /\ k = Ok tt.
Proof.
  unfold mbind, result_bind. destruct m as [[] | e]; split.
  - intros Hk; split; [reflexivity | exact Hk].
  - intros [_ Hk]; exact Hk.
  - discriminate.
  - intros [Hm _]; discriminate.
Qed.

Lemma invariant_check_FC_ASSERT (b : bool) : invariant_check (FC_ASSERT b).
Proof. destruct b; [left | right]; reflexivity. Qed.

Lemma invariant_check_bind (m k : result unit) :
  invariant_check m -> invariant_check k -> invariant_check (m ;; k).
Proof.
  intros [-> | ->] Hk; [exact Hk | right; reflexivity].
Qed.

Lemma invariant_check_not_Ok (r : result unit) :
  invariant_check r -> r <> Ok tt -> r = Err invariant_violation.
Proof. intros [-> | ->] Hn; [contradiction | reflexivity]. Qed.

Create HintDb checks.

#[local] Hint Resolve invariant_check_FC_ASSERT invariant_check_bind : checks.

(** ** The maker extension *)

Lemma maker_validate_invariant_check (m : maker_asset_options_extension.t) :
  invariant_check (maker_asset_options_extension.validate m).
Proof.
  unfold maker_asset_options_extension.validate.
  repeat apply invariant_check_bind; auto with checks.
  destruct (maker_asset_options_extension.is_maker_issued_asset m);
    [auto with checks | left; reflexivity].
Qed.

Lemma maker_validate_Ok (m : maker_asset_options_extension.t) :
  maker_asset_options_extension.validate m = Ok tt <-> maker_checked m.
Proof.
  unfold maker_asset_options_extension.validate, maker_checked.
  rewrite !bind_Ok, !FC_ASSERT_Ok, !Z.leb_le.
  destruct (maker_asset_options_extension.is_maker_issued_asset m).
  - rewrite FC_ASSERT_Ok, Z.eqb_eq. tauto.
  - intuition discriminate.
Qed.

(** The member initialisers give a record that validates. *)
Example maker_default_validate :
  maker_asset_options_extension.validate maker_asset_options_extension.default = Ok tt.
Proof. reflexivity. Qed.

(** C1 (as the code has it): [maker_asset_options_extension::validate]
    succeeds exactly when the three percentages are at most 10000 and a
    maker-issued asset has a reward percentage of 0; when one of these
    fails it fails with [invariant_violation]; in particular every
    record with [is_maker_issued_asset] set and a positive
    [maker_reward_percent] is rejected with [invariant_violation].
    The presence of [maker_reward_asset] is not among the checks. *)
Theorem maker_validate_checks (m : maker_asset_options_extension.t) :
  (maker_asset_options_extension.validate m = Ok tt <-> maker_checked m)
  /\ (~ maker_checked m ->
      maker_asset_options_extension.validate m = Err invariant_violation)
  /\ (maker_asset_options_extension.is_maker_issued_asset m = true ->
      maker_asset_options_extension.maker_reward_percent m > 0 ->
      maker_asset_options_extension.validate m = Err invariant_violation).
Proof.
  assert (Hfail : ~ maker_checked m ->
                  maker_asset_options_extension.validate m = Err invariant_violation).
  { intros Hn. apply invariant_check_not_Ok.
    - apply maker_validate_invariant_check.
    - rewrite maker_validate_Ok. exact Hn. }
  split; [apply maker_validate_Ok | split; [exact Hfail |]].
  intros Hissued Hpos. apply Hfail.
  intros (_ & _ & _ & Hzero). specialize (Hzero Hissued). lia.
Qed.

Lemma maker_validate_checks_witness :
  maker_asset_options_extension.validate sample_maker_contradiction
  = Err invariant_violation.
Proof.
  apply (proj2 (proj2 (maker_validate_checks sample_maker_contradiction))).
  - reflexivity.
  - simpl. lia.
Defined.

(** C1 as stated does not hold: a record with a reward percentage of
    500 and no reward asset passes [validate], although it breaks the
    invariant that a positive reward percentage has a reward asset. *)
Lemma maker_validate_ignores_reward_asset :
  ~ (maker_asset_options_extension.validate sample_maker_reward_without_asset = Ok tt
     <-> maker_invariants sample_maker_reward_without_asset).
Proof.
  intros [Hvalid _].
  destruct (Hvalid eq_refl) as [_ Hasset].
  assert (Hpos : maker_asset_options_extension.maker_reward_percent
                   sample_maker_reward_without_asset > 0) by (simpl; lia).
  destruct (Hasset Hpos) as [a Ha]. discriminate Ha.
Qed.

(** C10: the outcome of [maker_asset_options_extension::validate] does
    not depend on [maker_reward_asset]: two records that agree on the
    four other fields get the same result. *)
Theorem maker_validate_independent_of_reward_asset
    (m1 m2 : maker_asset_options_extension.t) :
  same_but_reward_asset m1 m2 ->
  maker_asset_options_extension.validate m1 = maker_asset_options_extension.validate m2.
Proof.
  intros (Hissued & Hfee & Hreward & Hdecay).
  unfold maker_asset_options_extension.validate.
  rewrite Hissued, Hfee, Hreward, Hdecay. reflexivity.
Qed.

Lemma maker_validate_independent_of_reward_asset_witness :
  maker_asset_options_extension.maker_reward_asset sample_maker_reward_without_asset
  <> maker_asset_options_extension.maker_reward_asset sample_maker_reward_with_asset
  /\ maker_asset_options_extension.validate sample_maker_reward_without_asset
     = maker_asset_options_extension.validate sample_maker_reward_with_asset.
Proof.
  split.
  - discriminate.
  - apply (maker_validate_independent_of_reward_asset
             sample_maker_reward_without_asset sample_maker_reward_with_asset).
    repeat split.
Defined.

(** C3: for every [asset_settle_cancel_operation] and every fee
    schedule, [calculate_fee] returns 0 and [validate] succeeds, also
    when the amount is 0. *)
Theorem asset_settle_cancel_free_and_valid
    (r : asset_settle_cancel_operation.t)
    (p : asset_settle_cancel_operation.fee_parameters_type.t) :
  asset_settle_cancel_operation.calculate_fee r p = 0
  /\ asset_settle_cancel_operation.validate r = Ok tt.
Proof. split; reflexivity. Qed.

(** C4: [fee_payer()] of each operation is the account named for it:
    [issuer] for create, update, update_bitasset, update_feed_producers,
    global_settle and issue; [publisher] for publish_feed; [account] for
    settle and settle_cancel; [payer] for reserve; [from_account] for
    fund_fee_pool. *)
Theorem fee_payer_fields :
  (forall op, asset_create_operation.fee_payer op = asset_create_operation.issuer op)
  /\ (forall op, asset_update_operation.fee_payer op = asset_update_operation.issuer op)
  /\ (forall op, asset_update_bitasset_operation.fee_payer op
                 = asset_update_bitasset_operation.issuer op)
  /\ (forall op, asset_update_feed_producers_operation.fee_payer op
                 = asset_update_feed_producers_operation.issuer op)
  /\ (forall op, asset_global_settle_operation.fee_payer op
                 = asset_global_settle_operation.issuer op)
  /\ (forall op, asset_issue_operation.fee_payer op = asset_issue_operation.issuer op)
  /\ (forall op, asset_publish_feed_operation.fee_payer op
                 = asset_publish_feed_operation.publisher op)
  /\ (forall op, asset_settle_operation.fee_payer op = asset_settle_operation.account op)
  /\ (forall op, asset_settle_cancel_operation.fee_payer op
                 = asset_settle_cancel_operation.account op)
  /\ (forall op, asset_reserve_operation.fee_payer op = asset_reserve_operation.payer op)
  /\ (forall op, asset_fund_fee_pool_operation.fee_payer op
                 = asset_fund_fee_pool_operation.from_account op).
Proof. repeat split. Qed.

(** ** Default fee schedules *)

Lemma to_uint64_small (z : Z) : 0 <= z < 2 ^ 64 -> to_uint64 z = z.
Proof. intros Hz. unfold to_uint64. apply Z.mod_small. exact Hz. Qed.

Lemma to_uint32_small (z : Z) : 0 <= z < 2 ^ 32 -> to_uint32 z = z.
Proof. intros Hz. unfold to_uint32. apply Z.mod_small. exact Hz. Qed.

(** C2 (as the code has it): when [GRAPHENE_BLOCKCHAIN_PRECISION] fits
    32 bits, every default fee is the stated multiple of it (symbol3
    500000, symbol4 300000, long_symbol 5000, update 500, issue 20 with
    a per-kilobyte price of 1, global_settle 500, settle 100,
    fund_fee_pool 1, update_bitasset 500, update_feed_producers 500,
    publish_feed 1, reserve 20), while the per-kilobyte prices of
    asset_create and asset_update are the plain number 10, not ten
    units. *)
Theorem default_fee_schedules_values `{chain_config} :
  0 <= GRAPHENE_BLOCKCHAIN_PRECISION < 2 ^ 32 ->
  default_fee_schedules 10 10.
Proof.
  intros Hunit.
  assert (H32 : 2 ^ 32 = 4294967296) by reflexivity.
  assert (H64 : 2 ^ 64 = 18446744073709551616) by reflexivity.
  unfold default_fee_schedules; simpl.
  repeat split; try reflexivity;
    try (rewrite to_uint64_small; lia);
    try (rewrite to_uint32_small; lia).
Qed.

Lemma default_fee_schedules_values_witness :
  @default_fee_schedules sample_config 10 10.
Proof.
  apply (@default_fee_schedules_values sample_config).
  simpl. lia.
Defined.

(** C2 as stated does not hold: with a precision of 100000 the default
    per-kilobyte price of asset_create is 10, not 10 units of the
    precision. *)
Lemma default_price_per_kbyte_not_in_units :
  ~ @default_fee_schedules sample_config
      (10 * @GRAPHENE_BLOCKCHAIN_PRECISION sample_config)
      (10 * @GRAPHENE_BLOCKCHAIN_PRECISION sample_config).
Proof.
  intros (_ & _ & _ & Hprice & _). simpl in Hprice. discriminate Hprice.
Qed.

(** ** Field orders *)

(** C9: for every record whose wire order the specification declares,
    the member list registered with [FC_REFLECT] is that order; in
    particular asset_create_operation is registered as fee, issuer,
    symbol, precision, common_options, bitasset_opts,
    is_prediction_market, extensions and maker_asset_options_extension
    as is_maker_issued_asset, maker_fee_percent, maker_reward_percent,
    maker_reward_asset, daily_reward_decay_rate. *)
Theorem reflected_order_as_declared :
  (forall r fields, declared_order r = Some fields -> FC_REFLECT r = fields)
  /\ (forall o, is_Some (declared_order (r_operation o)))
  /\ FC_REFLECT (r_operation o_asset_create)
     = ["fee"; "issuer"; "symbol"; "precision"; "common_options"; "bitasset_opts";
        "is_prediction_market"; "extensions"]%string
  /\ FC_REFLECT r_maker_asset_options_extension
     = ["is_maker_issued_asset"; "maker_fee_percent"; "maker_reward_percent";
        "maker_reward_asset"; "daily_reward_decay_rate"]%string.
Proof.
  split; [| split; [| split; reflexivity]].
  - intros r fields Hdeclared.
    destruct r as [ | | | o | o]; try destruct o;
      simpl in Hdeclared; inversion Hdeclared; reflexivity.
  - intros o. eexists. reflexivity.
Qed.

Lemma reflected_order_as_declared_witness :
  FC_REFLECT (r_operation o_asset_issue)
  = ["fee"; "issuer"; "asset_to_issue"; "issue_to_account"; "memo"; "extensions"]%string.
Proof.
  apply (proj1 reflected_order_as_declared (r_operation o_asset_issue)).
  reflexivity.
Defined.

(** ** Symbols *)

Lemma length_list_ascii_of_string (s : string) :
  length (list_ascii_of_string s) = String.length s.
Proof. induction s as [| c s IH]; simpl; [reflexivity | rewrite IH; reflexivity]. Qed.

Lemma is_upper_in_A_Z (c : ascii) : is_upper c = true <-> in_A_Z c.
Proof.
  unfold is_upper, in_A_Z. rewrite andb_true_iff, !Z.leb_le. tauto.
Qed.

Lemma is_digit_in_0_9 (c : ascii) : is_digit c = true <-> in_0_9 c.
Proof.
  unfold is_digit, in_0_9. rewrite andb_true_iff, !Z.leb_le. tauto.
Qed.

Lemma is_dot_eq (c : ascii) : is_dot c = true <-> c = "."%char.
Proof.
  unfold is_dot, char_code. rewrite Z.eqb_eq. split.
  - intros Hcode.
    assert (Hn : N_of_ascii c = 46%N) by lia.
    rewrite <- (ascii_N_embedding c), Hn. reflexivity.
  - intros ->. reflexivity.
Qed.

Lemma is_symbol_char_allowed (c : ascii) : is_symbol_char c = true <-> allowed_char c.
Proof.
  unfold is_symbol_char, allowed_char.
  rewrite !orb_true_iff, is_upper_in_A_Z, is_digit_in_0_9, is_dot_eq. tauto.
Qed.

Lemma forallb_symbol_chars (cs : list ascii) :
  forallb is_symbol_char cs = true <-> Forall allowed_char cs.
Proof.
  induction cs as [| c cs IH]; simpl.
  - split; [constructor | reflexivity].
  - rewrite andb_true_iff, IH, is_symbol_char_allowed, Forall_cons. tauto.
Qed.

Lemma count_dots_filter (cs : list ascii) :
  count_dots cs = Z.of_nat (length (filter (fun c => c = "."%char) cs)).
Proof.
  induction cs as [| c cs IH]; [reflexivity |].
  simpl count_dots. rewrite filter_cons.
  destruct (decide (c = "."%char)) as [Hdot | Hdot].
  - apply is_dot_eq in Hdot. rewrite Hdot. simpl length. lia.
  - destruct (is_dot c) eqn:Hc; [apply is_dot_eq in Hc; contradiction | lia].
Qed.

Lemma count_dots_nonneg (cs : list ascii) : 0 <= count_dots cs.
Proof. rewrite count_dots_filter. lia. Qed.

(** With at most one dot, no two dots are adjacent. *)
Lemma one_dot_no_adjacent_dots (cs : list ascii) :
  count_dots cs <= 1 -> no_adjacent_dots cs = true.
Proof.
  induction cs as [| c1 cs IH]; [reflexivity |].
  intros Hcount. simpl in Hcount.
  destruct cs as [| c2 cs']; [reflexivity |].
  change (negb (is_dot c1 && is_dot c2) && no_adjacent_dots (c2 :: cs') = true).
  pose proof (count_dots_nonneg (c2 :: cs')) as Hrest.
  rewrite IH by (destruct (is_dot c1); lia).
  simpl in Hcount, Hrest. pose proof (count_dots_nonneg cs') as Htail.
  destruct (is_dot c1), (is_dot c2); simpl; try reflexivity; lia.
Qed.

Lemma from_option_is_upper (o : option ascii) :
  from_option is_upper false o = true <-> exists c, o = Some c /\ in_A_Z c.
Proof.
  destruct o as [c |]; simpl.
  - rewrite is_upper_in_A_Z. split.
    + intros Hc. exists c. split; [reflexivity | exact Hc].
    + intros (c' & Heq & Hc). inversion Heq. exact Hc.
  - split; [discriminate | intros (c & Heq & _); discriminate].
Qed.

Lemma is_valid_symbol_well_formed (symbol : string) :
  is_valid_symbol symbol = true <-> symbol_well_formed symbol.
Proof.
  unfold is_valid_symbol, symbol_well_formed.
  rewrite length_list_ascii_of_string.
  rewrite !andb_true_iff, !Z.leb_le, !from_option_is_upper, forallb_symbol_chars.
  rewrite count_dots_filter.
  split.
  - intros ((((((Hmin & Hmax) & Hfirst) & Hlast) & Hchars) & Hdots) & _).
    repeat split; try assumption; lia.
  - intros ((Hmin & Hmax) & Hfirst & Hlast & Hchars & Hdots).
    repeat split; try assumption; try lia.
    apply one_dot_no_adjacent_dots. rewrite count_dots_filter. lia.
Qed.

(** C7: [is_valid_symbol] returns true exactly when the symbol has 3 to
    16 characters, its first and last characters are letters of A-Z,
    every character is in A-Z, 0-9 or a dot, and there is at most one
    dot; it accepts BTS, ABC.XYZ and the 16-letter ABCDEFGHIJKLMNOP and
    rejects AB, bts, A.B.C and the 17-letter ABCDEFGHIJKLMNOPQ. *)
Theorem is_valid_symbol_classifies :
  (forall symbol, is_valid_symbol symbol = true <-> symbol_well_formed symbol)
  /\ is_valid_symbol "BTS" = true
  /\ is_valid_symbol "ABC.XYZ" = true
  /\ is_valid_symbol "ABCDEFGHIJKLMNOP" = true
  /\ is_valid_symbol "AB" = false
  /\ is_valid_symbol "bts" = false
  /\ is_valid_symbol "A.B.C" = false
  /\ is_valid_symbol "ABCDEFGHIJKLMNOPQ" = false.
Proof.
  split; [exact is_valid_symbol_well_formed | repeat split].
Qed.

Lemma is_valid_symbol_classifies_witness : symbol_well_formed "BTS".
Proof.
  apply (proj1 (proj1 is_valid_symbol_classifies "BTS"%string)).
  reflexivity.
Defined.

(** ** Fees *)











(** ** Bit masks *)

Lemma land_lnot_zero (a b : Z) :
  0 <= a -> Z.land a (Z.lnot b) = 0 <-> ~ has_bit_outside a b.
Proof.
  intros Ha. rewrite <- Z.ldiff_land. split.
  - intros Hzero (i & Hi & Hai & Hbi).
    assert (Hbit : Z.testbit (Z.ldiff a b) i = true)
      by (rewrite Z.ldiff_spec, Hai, Hbi; reflexivity).
    rewrite Hzero, Z.bits_0 in Hbit. discriminate.
  - intros Hnone.
    assert (Hnonneg : 0 <= Z.ldiff a b) by (apply Z.ldiff_nonneg; left; exact Ha).
    destruct (Z.eq_dec (Z.ldiff a b) 0) as [Hzero | Hnz]; [exact Hzero |].
    exfalso. apply Hnone. exists (Z.log2 (Z.ldiff a b)).
    assert (Hbit : Z.testbit (Z.ldiff a b) (Z.log2 (Z.ldiff a b)) = true)
      by (apply Z.bit_log2; lia).
    rewrite Z.ldiff_spec, andb_true_iff, negb_true_iff in Hbit.
    destruct Hbit as [Hai Hbi].
    split; [apply Z.log2_nonneg | split; assumption].
Qed.

(** ** Option records *)

Lemma price_validate_invariant_check (p : price.t) : invariant_check (price.validate p).
Proof. unfold price.validate. auto with checks. Qed.

Lemma price_validate_Ok (p : price.t) :
  price.validate p = Ok tt
  <-> 0 < asset.amount (price.base p) /\ 0 < asset.amount (price.quote p)
      /\ asset.asset_id (price.base p) <> asset.asset_id (price.quote p).
Proof.
  unfold price.validate.
  rewrite !bind_Ok, !FC_ASSERT_Ok, !Z.ltb_lt, negb_true_iff, bool_decide_eq_false.
  reflexivity.
Qed.

Lemma validate_extension_invariant_check (e : asset_options_extension) :
  invariant_check (validate_extension e).
Proof.
  destruct e as [| m]; simpl; [left; reflexivity | apply maker_validate_invariant_check].
Qed.

Lemma validate_extensions_invariant_check (es : list asset_options_extension) :
  invariant_check (validate_extensions es).
Proof.
  induction es as [| e es IH]; simpl.
  - left; reflexivity.
  - apply invariant_check_bind; [apply validate_extension_invariant_check | exact IH].
Qed.

Lemma validate_extensions_Ok (es : list asset_options_extension) :
  validate_extensions es = Ok tt
  <-> ~ exists e, e ∈ es /\ validate_extension e <> Ok tt.
Proof.
  induction es as [| e es IH]; simpl.
  - split; [| reflexivity]. intros _ (e & He & _). inversion He.
  - rewrite bind_Ok, IH. split.
    + intros [He Hes] (e' & Hin & Hbad).
      apply elem_of_cons in Hin as [-> | Hin]; [contradiction |].
      apply Hes. exists e'. split; assumption.
    + intros Hnone. split.
      * destruct (validate_extension_invariant_check e) as [Hok | Herr]; [exact Hok |].
        exfalso. apply Hnone. exists e. split; [left | congruence].
      * intros (e' & Hin & Hbad). apply Hnone. exists e'. split; [right; exact Hin | exact Hbad].
Qed.

Lemma not_NoDup_repeats (l : list Z) :
  ~ NoDup l -> exists (i j : nat) x, i <> j /\ l !! i = Some x /\ l !! j = Some x.
Proof.
  induction l as [| x l IH]; intros Hdup.
  - exfalso. apply Hdup. constructor.
  - destruct (decide (x ∈ l)) as [Hin | Hout].
    + apply list_elem_of_lookup in Hin as [j Hj].
      exists 0%nat, (S j), x. repeat split; [discriminate | exact Hj].
    + destruct IH as (i & j & y & Hij & Hi & Hj).
      { intros Hl. apply Hdup. constructor; assumption. }
      exists (S i), (S j), y. repeat split; [congruence | exact Hi | exact Hj].
Qed.

Lemma NoDup_tags (es : list asset_options_extension) :
  NoDup (which <$> es) <-> ~ share_a_tag es.
Proof.
  split.
  - intros Hnodup (i & j & e1 & e2 & Hij & Hi & Hj & Htag).
    apply Hij. apply (NoDup_lookup (which <$> es) i j (which e1) Hnodup).
    + rewrite list_lookup_fmap, Hi. reflexivity.
    + rewrite list_lookup_fmap, Hj, Htag. reflexivity.
  - intros Hnone. destruct (decide (NoDup (which <$> es))) as [Hok | Hdup]; [exact Hok |].
    exfalso. apply Hnone.
    destruct (not_NoDup_repeats _ Hdup) as (i & j & x & Hij & Hi & Hj).
    rewrite list_lookup_fmap in Hi, Hj.
    apply fmap_Some in Hi as (e1 & He1 & Hx1).
    apply fmap_Some in Hj as (e2 & He2 & Hx2).
    exists i, j, e1, e2. repeat split; [exact Hij | exact He1 | exact He2 | congruence].
Qed.

Lemma markets_disjoint (w b : gset asset_id_type) :
  w ∩ b = ∅ <-> ~ exists x, x ∈ w /\ x ∈ b.
Proof.
  split.
  - intros Hempty (x & Hw & Hb).
    assert (Hx : x ∈ w ∩ b) by (apply elem_of_intersection; split; assumption).
    rewrite Hempty in Hx. exact (not_elem_of_empty x Hx).
  - intros Hnone. apply elem_of_equiv_empty_L. intros x Hx.
    apply elem_of_intersection in Hx. apply Hnone. exists x. exact Hx.
Qed.

Lemma asset_options_validate_invariant_check `{chain_config} (o : asset_options.t) :
  invariant_check (asset_options.validate o).
Proof.
  unfold asset_options.validate.
  repeat apply invariant_check_bind;
    auto using price_validate_invariant_check, validate_extensions_invariant_check
      with checks.
Qed.

Lemma asset_options_validate_Ok `{chain_config} (o : asset_options.t) :
  asset_options.well_typed o ->
  asset_options.validate o = Ok tt <-> ~ asset_options_violation o.
Proof.
  intros (_ & [Hperm _] & [Hflags _]).
  unfold asset_options.validate, asset_options_violation.
  rewrite !bind_Ok, !FC_ASSERT_Ok, andb_true_iff, !Z.leb_le, !Z.ltb_lt, !Z.eqb_eq,
    !bool_decide_eq_true, price_validate_Ok, validate_extensions_Ok, NoDup_tags,
    markets_disjoint, !land_lnot_zero by assumption.
  split.
  - intros (Hs1 & Hs2 & Hfee & [Hm1 Hm2] & Hf & Hp & Hmk & (Hb & Hq & Hid) & Hext & Htag).
    intros [Hv | [Hv | [Hv | [Hv | [Hv | [Hv | [Hv | [Hv | [Hv | [Hv | [Hv | [Hv | Hv]]]]]]]]]]]];
      try lia; contradiction.
  - intros Hnone. repeat split.
    all: try (apply Z.nlt_ge || apply Z.nle_gt); try lia.
    all: try (intros Hv; apply Hnone; tauto).
Qed.

(** C6: under the listed conditions [asset_options::validate] fails
    with [invariant_violation], and otherwise it succeeds: the
    conditions are a maximum supply that is not positive or above the
    maximum share supply, a market fee above 10000, a maximum market
    fee that is negative or above the maximum share supply, a flag bit
    outside the issuer permissions, a permission bit outside the mask
    of user-issued assets, a market both white- and blacklisted, a core
    exchange rate with a non-positive amount or the same asset on both
    legs, an extension that fails its own validation, two extensions
    with the same tag. *)
Theorem asset_options_validate_violations `{chain_config} (o : asset_options.t) :
  asset_options.well_typed o ->
  (asset_options_violation o -> asset_options.validate o = Err invariant_violation)
  /\ (~ asset_options_violation o -> asset_options.validate o = Ok tt).
Proof.
  intros Hty. split.
  - intros Hv. apply invariant_check_not_Ok.
    + apply asset_options_validate_invariant_check.
    + rewrite (asset_options_validate_Ok o Hty). tauto.
  - apply (asset_options_validate_Ok o Hty).
Qed.

Lemma asset_options_validate_violations_witness :
  @asset_options.validate sample_config sample_options_overlap = Err invariant_violation.
Proof.
  apply (@asset_options_validate_violations sample_config sample_options_overlap).
  - repeat split; simpl; lia.
  - do 7 right. left. exists (asset_id 5).
    split; simpl; apply elem_of_singleton_2; reflexivity.
Defined.

(** The plain default options validate, by running the definition. *)
Example sample_options_validate :
  @asset_options.validate sample_config sample_options = Ok tt.
Proof. vm_compute. reflexivity. Qed.

(** ** asset_create *)

Lemma bitasset_options_validate_invariant_check `{chain_config} (b : bitasset_options.t) :
  invariant_check (bitasset_options.validate b).
Proof. unfold bitasset_options.validate. auto with checks. Qed.

Lemma market_issued_flag_true `{chain_config} (op : asset_create_operation.t) :
  asset_create_operation.market_issued_flag op = true
  <-> Z.land (asset_options.flags (asset_create_operation.common_options op)) market_issued
      <> 0.
Proof.
  unfold asset_create_operation.market_issued_flag.
  rewrite negb_true_iff, Z.eqb_neq. reflexivity.
Qed.

Lemma asset_create_validate_invariant_check `{chain_config} (op : asset_create_operation.t) :
  invariant_check (asset_create_operation.validate op).
Proof.
  unfold asset_create_operation.validate.
  repeat first [ apply asset_options_validate_invariant_check
               | apply invariant_check_FC_ASSERT
               | apply invariant_check_bind ].
  - destruct (asset_create_operation.market_issued_flag op); [| auto with checks].
    destruct (asset_create_operation.bitasset_opts op) as [b |];
      [apply bitasset_options_validate_invariant_check | auto with checks].
  - destruct (asset_create_operation.is_prediction_market op);
      [auto with checks | left; reflexivity].
Qed.

(** What a successful [validate] says about [bitasset_opts]. *)
Lemma asset_create_validate_Ok_bitasset `{chain_config} (op : asset_create_operation.t) :
  asset_create_operation.validate op = Ok tt ->
  if asset_create_operation.market_issued_flag op
  then exists b, asset_create_operation.bitasset_opts op = Some b
                 /\ bitasset_options.validate b = Ok tt
  else asset_create_operation.bitasset_opts op = None.
Proof.
  unfold asset_create_operation.validate. rewrite !bind_Ok.
  intros (_ & _ & _ & _ & Hbit & _).
  destruct (asset_create_operation.market_issued_flag op).
  - destruct (asset_create_operation.bitasset_opts op) as [b |].
    + exists b. split; [reflexivity | exact Hbit].
    + discriminate Hbit.
  - apply FC_ASSERT_Ok, bool_decide_eq_true in Hbit. exact Hbit.
Qed.

(** C5: [asset_create_operation::validate] accepts a record only if
    [bitasset_opts] is present exactly when the market-issued bit is
    set in [common_options.flags]: with the bit set [bitasset_opts] is
    present and validates, with the bit clear it is absent; and a
    record with the bit set and no [bitasset_opts] fails with
    [invariant_violation]. *)
Theorem asset_create_validate_bitasset_opts `{chain_config}
    (op : asset_create_operation.t) :
  let flags := asset_options.flags (asset_create_operation.common_options op) in
  (asset_create_operation.validate op = Ok tt ->
   (Z.land flags market_issued <> 0 ->
    exists b, asset_create_operation.bitasset_opts op = Some b
              /\ bitasset_options.validate b = Ok tt)
   /\ (Z.land flags market_issued = 0 -> asset_create_operation.bitasset_opts op = None))
  /\ (Z.land flags market_issued <> 0 ->
      asset_create_operation.bitasset_opts op = None ->
      asset_create_operation.validate op = Err invariant_violation).
Proof.
  intros flags.
  assert (Hok : asset_create_operation.validate op = Ok tt ->
                (Z.land flags market_issued <> 0 ->
                 exists b, asset_create_operation.bitasset_opts op = Some b
                           /\ bitasset_options.validate b = Ok tt)
                /\ (Z.land flags market_issued = 0 ->
                    asset_create_operation.bitasset_opts op = None)).
  { intros Hvalid. pose proof (asset_create_validate_Ok_bitasset op Hvalid) as Hbit.
    destruct (asset_create_operation.market_issued_flag op) eqn:Hflag.
    - split; [intros _; exact Hbit |].
      apply market_issued_flag_true in Hflag. intros Hzero. contradiction.
    - split; [| intros _; exact Hbit].
      intros Hset. apply market_issued_flag_true in Hset. congruence. }
  split; [exact Hok |].
  intros Hset Hnone. apply invariant_check_not_Ok.
  - apply asset_create_validate_invariant_check.
  - intros Hvalid. destruct (proj1 (Hok Hvalid) Hset) as (b & Hsome & _). congruence.
Qed.

Lemma asset_create_validate_bitasset_opts_witness :
  @asset_create_operation.validate sample_config
    (sample_create sample_options_market None) = Err invariant_violation
  /\ exists b,
       asset_create_operation.bitasset_opts
         (sample_create sample_options_market (Some sample_bitasset_options)) = Some b
       /\ @bitasset_options.validate sample_config b = Ok tt.
Proof.
  split.
  - apply (proj2 (@asset_create_validate_bitasset_opts sample_config
                    (sample_create sample_options_market None))).
    + vm_compute. discriminate.
    + reflexivity.
  - apply (proj1 (@asset_create_validate_bitasset_opts sample_config
                    (sample_create sample_options_market (Some sample_bitasset_options)))).
    + vm_compute. reflexivity.
    + vm_compute. discriminate.
Defined.

(** A plain user-issued asset with a three-letter symbol validates and
    pays the three-letter fee, by running the definitions. *)
Example sample_create_validate :
  @asset_create_operation.validate sample_config (sample_create sample_options None) = Ok tt
  /\ asset_create_operation.calculate_fee (sample_create sample_options None)
       (@asset_create_operation.fee_parameters_type.default sample_config)
     = 500000 * 100000.
Proof. split; vm_compute; reflexivity. Qed.

(** * Further properties of the header *)

(** ** The maker extension under changes of its fields *)

(** X1: clearing [is_maker_issued_asset] never invalidates a maker
    extension, and the extension is valid with the flag set exactly
    when it is valid as it stands and its reward percentage is 0. *)
Theorem maker_validate_flag (m : maker_asset_options_extension.t) :
  (maker_asset_options_extension.validate m = Ok tt ->
   maker_asset_options_extension.validate
     (maker_asset_options_extension.with_is_maker_issued_asset false m) = Ok tt)
  /\ (maker_asset_options_extension.validate
        (maker_asset_options_extension.with_is_maker_issued_asset true m) = Ok tt
      <-> maker_asset_options_extension.validate m = Ok tt
          /\ maker_asset_options_extension.maker_reward_percent m = 0).
Proof.
  rewrite !maker_validate_Ok. unfold maker_checked; simpl. split.
  - intros (Hdecay & Hreward & Hfee & _). repeat split; try assumption. discriminate.
  - split.
    + intros (Hdecay & Hreward & Hfee & Hzero).
      specialize (Hzero eq_refl). repeat split; try assumption. intros _; exact Hzero.
    + intros ((Hdecay & Hreward & Hfee & _) & Hzero).
      repeat split; try assumption. intros _; exact Hzero.
Qed.

Lemma maker_validate_flag_witness :
  maker_asset_options_extension.is_maker_issued_asset sample_maker_issued = true
  /\ maker_asset_options_extension.validate
       (maker_asset_options_extension.with_is_maker_issued_asset false
          sample_maker_issued) = Ok tt
  /\ maker_asset_options_extension.validate
       (maker_asset_options_extension.with_is_maker_issued_asset true
          sample_maker_reward_with_asset) <> Ok tt.
Proof.
  split; [reflexivity | split].
  - apply (proj1 (maker_validate_flag sample_maker_issued)). reflexivity.
  - intros Hvalid.
    apply (proj1 (proj2 (maker_validate_flag sample_maker_reward_with_asset))) in Hvalid.
    destruct Hvalid as [_ Hzero]. discriminate Hzero.
Defined.

(** X2: validity of a maker extension is kept when its percentages are
    lowered: a record with the same flag, a reward percentage between 0
    and the old one, and fee percentage and decay rate not above the
    old ones validates whenever the old record does. *)
Theorem maker_validate_downward_closed (m' m : maker_asset_options_extension.t) :
  maker_no_larger m' m ->
  maker_asset_options_extension.validate m = Ok tt ->
  maker_asset_options_extension.validate m' = Ok tt.
Proof.
  intros (Hflag & [Hnonneg Hreward] & Hfee & Hdecay).
  rewrite !maker_validate_Ok. unfold maker_checked. rewrite Hflag.
  intros (Hd & Hr & Hf & Hzero).
  repeat split; try lia.
  intros Hissued. specialize (Hzero Hissued). lia.
Qed.

Lemma maker_validate_downward_closed_witness :
  maker_asset_options_extension.validate maker_asset_options_extension.default = Ok tt.
Proof.
  apply (maker_validate_downward_closed maker_asset_options_extension.default
           sample_maker_reward_with_asset).
  - repeat split; simpl; lia.
  - reflexivity.
Defined.

(** ** Default schedules *)

(** X3: with a positive [GRAPHENE_BLOCKCHAIN_PRECISION] that fits 32
    bits, the default base fees of asset_create fall with the length of
    the symbol ([long_symbol] below [symbol4] below [symbol3]), and the
    default flat fee of every other operation is below [long_symbol]. *)
Theorem default_create_fees_ordered `{chain_config} :
  0 < GRAPHENE_BLOCKCHAIN_PRECISION < 2 ^ 32 ->
  asset_create_operation.fee_parameters_type.long_symbol
    asset_create_operation.fee_parameters_type.default
  < asset_create_operation.fee_parameters_type.symbol4
      asset_create_operation.fee_parameters_type.default
  /\ asset_create_operation.fee_parameters_type.symbol4
       asset_create_operation.fee_parameters_type.default
     < asset_create_operation.fee_parameters_type.symbol3
         asset_create_operation.fee_parameters_type.default
  /\ Forall (fun fee => fee < asset_create_operation.fee_parameters_type.long_symbol
                               asset_create_operation.fee_parameters_type.default)
       default_flat_fees.
Proof.
  intros Hunit.
  assert (H64 : 2 ^ 64 = 18446744073709551616) by reflexivity.
  assert (H32 : 2 ^ 32 = 4294967296) by reflexivity.
  unfold default_flat_fees; simpl.
  rewrite !to_uint64_small by lia.
  split; [lia | split; [lia |]].
  repeat constructor; lia.
Qed.

Lemma default_create_fees_ordered_witness :
  @asset_create_operation.fee_parameters_type.symbol4
    (@asset_create_operation.fee_parameters_type.default sample_config)
  < @asset_create_operation.fee_parameters_type.symbol3
      (@asset_create_operation.fee_parameters_type.default sample_config).
Proof.
  refine (proj1 (proj2 (@default_create_fees_ordered sample_config _))).
  simpl. lia.
Defined.

(** X4: the default-constructed [asset_options] keep the permission
    bits consistent for every value of the mask: the flags have no bit
    outside the issuer permissions, and the issuer permissions, the
    mask cut to 16 bits, have no bit outside the mask. *)
Theorem asset_options_default_permissions `{chain_config} (rate : price.t) :
  ~ has_bit_outside (asset_options.flags (asset_options.default rate))
      (asset_options.issuer_permissions (asset_options.default rate))
  /\ ~ has_bit_outside (asset_options.issuer_permissions (asset_options.default rate))
         UIA_ASSET_ISSUER_PERMISSION_MASK
  /\ is_uint16 (asset_options.issuer_permissions (asset_options.default rate)).
Proof.
  simpl. unfold to_uint16. split; [| split].
  - intros (i & _ & Hset & _). rewrite Z.bits_0 in Hset. discriminate.
  - intros (i & Hi & Hset & Hclear).
    rewrite Z.testbit_mod_pow2, andb_true_iff in Hset by lia.
    destruct Hset as [_ Hset]. congruence.
  - unfold is_uint16. apply Z.mod_pos_bound. reflexivity.
Qed.

(** ** Registrations *)

(** X5: every [FC_REFLECT] registration lists exactly the data members
    of its struct, in the order the struct declares them: no member is
    left out of serialization, none is added or moved. *)
Theorem FC_REFLECT_struct_members (r : reflected) : FC_REFLECT r = struct_members r.
Proof. destruct r as [| | | o | o]; try destruct o; reflexivity. Qed.

(** X6: no [FC_REFLECT] registration names a member twice. *)
Theorem FC_REFLECT_NoDup (r : reflected) : NoDup (FC_REFLECT r).
Proof.
  destruct r as [| | | o | o]; try destruct o;
    apply (bool_decide_unpack _); vm_compute; exact I.
Qed.

(** X7: every operation is registered with [fee] as its first member
    and [extensions] as its last, and has at least one member in
    between. *)
Theorem operation_registration_shape (o : reflected_operation) :
  exists middle,
    middle <> []
    /\ FC_REFLECT (r_operation o) = ("fee"%string :: middle) ++ ["extensions"%string].
Proof.
  destruct o; simpl;
    match goal with
    | |- exists middle, _ /\ (_ :: ?l) = _ => exists (removelast l)
    end; simpl; split; (discriminate || reflexivity).
Qed.
